(** * AI Code Companion API (src/main.py)

    A shallow embedding of the FastAPI application of [src/main.py]: the
    request model [PromptRequest], the endpoints [read_root], [greet_user],
    [generate_code] and [health_check], the [startup] hook and the custom 429
    handler, followed by the properties of the specification that concern
    them.

    The application is glue around four external collaborators: the
    fastapi-limiter package and its Redis connection, the Ollama backend
    reached through httpx, the wall clock, and the FastAPI request pipeline.
    None of them is part of the repository.  Their answers are gathered in
    the record [Env]; every endpoint is a function of an [Env] and of a
    [world] that carries the class attribute [FastAPILimiter.redis] and the
    trace of the interactions performed so far. *)

From Stdlib Require Import ZArith String List Floats DecimalString Lia.
Import ListNotations.
Local Open Scope string_scope.
Local Open Scope Z_scope.
Set Warnings "-register-all".

(** ** Values *)

(** Python values that travel as JSON: request payloads, the bodies of
    upstream answers and the dictionaries returned by the endpoints.  A
    dictionary keeps its items in insertion order. *)
Inductive json : Type :=
| JNull
| JBool (b : bool)
| JInt (z : Z)
| JFloat (f : float)
| JStr (s : string)
| JList (l : list json)
| JDict (items : list (string * json)).

(** [d[key]] as a lookup: the first item stored under [key]. *)
Fixpoint assoc (key : string) (items : list (string * json)) : option json :=
  match items with
  | [] => None
  | (k, v) :: rest => if String.eqb k key then Some v else assoc key rest
  end.

(** What httpx can encode as the body of a request: it serialises the
    [json=] argument with [allow_nan=False], so a value that holds an
    infinity or a NaN is refused with a [ValueError]. *)
Fixpoint json_compliant (v : json) : bool :=
  match v with
  | JFloat f => PrimFloat.is_finite f
  | JList l => forallb json_compliant l
  | JDict items => forallb (fun item => json_compliant (snd item)) items
  | _ => true
  end.

(** [type(v).__name__] for a decoded JSON value. *)
Definition type_name (v : json) : string :=
  match v with
  | JNull => "NoneType"
  | JBool _ => "bool"
  | JInt _ => "int"
  | JFloat _ => "float"
  | JStr _ => "str"
  | JList _ => "list"
  | JDict _ => "dict"
  end.

(** An [Optional[...]] attribute as a JSON value: [None] is [null]. *)
Definition opt_json {A : Type} (inj : A -> json) (o : option A) : json :=
  match o with
  | Some a => inj a
  | None => JNull
  end.

(** ** Exceptions *)

(** The exceptions the application sees.  [HTTPException] is FastAPI's;
    [PyError] stands for every other subclass of [Exception] (transport
    errors of httpx, a JSON decoding error, an [AttributeError], a Redis
    connection error), with its class name and its message. *)
Inductive exn : Type :=
| HTTPException (status_code : Z) (detail : string)
| PyError (cls : string) (message : string).

Definition string_of_Z (z : Z) : string := NilZero.string_of_int (Z.to_int z).

(** [str(e)].  Starlette's [HTTPException.__str__] renders
    [f"{status_code}: {detail}"]; any other exception renders its message. *)
Definition str (e : exn) : string :=
  match e with
  | HTTPException status_code detail => string_of_Z status_code ++ ": " ++ detail
  | PyError _ message => message
  end.

(** ** Requests, responses and the world *)

(** Lines 44-48: the request model. *)
Record PromptRequest : Type := {
  prompt : string;
  model : option string;
  temperature : option float;
  max_tokens : option Z
}.

(** An inbound request whose body FastAPI could decode: the client it
    comes from (what the limiter derives its key from) and the decoded JSON
    payload.  A body that is not JSON never becomes a [Request]: see
    [post_generate_http]. *)
Record Request : Type := {
  client : string;
  payload : json
}.

(** The answer of the upstream backend as httpx presents it: [status_code],
    [text], and what [response.json()] gives (a decoding error or a value). *)
Record Response : Type := {
  status_code : Z;
  text : string;
  json_body : exn + json
}.

(** A connection handle returned by [redis.from_url]. *)
Record Redis : Type := { url : string }.

(** The interactions with the outside, newest first. *)
Inductive event : Type :=
| Printed (line : string)
| RateLimiterCalled (who : string)
| UpstreamPost (target : string) (sent : json)
| RemainingQueried (who : string).

Record world : Type := {
  limiter_redis : option Redis;   (* FastAPILimiter.redis *)
  trace : list event
}.

Definition record (ev : event) (w : world) : world :=
  {| limiter_redis := limiter_redis w; trace := ev :: trace w |}.

(** The upstream calls found in a trace. *)
Fixpoint upstream_posts (tr : list event) : list (string * json) :=
  match tr with
  | [] => []
  | UpstreamPost target sent :: rest => (target, sent) :: upstream_posts rest
  | _ :: rest => upstream_posts rest
  end.

(** The clients for which the rate limiter dependency was called. *)
Fixpoint rate_limiter_calls (tr : list event) : list string :=
  match tr with
  | [] => []
  | RateLimiterCalled who :: rest => who :: rate_limiter_calls rest
  | _ :: rest => rate_limiter_calls rest
  end.

(** The external collaborators.  Each answer may depend on the world, hence
    on everything that happened before. *)
Record Env : Type := {
  (* redis.asyncio.from_url(url, ...) *)
  redis_from_url : string -> world -> exn + Redis;
  (* FastAPILimiter.init(connection): how it ends, and the value of
     FastAPILimiter.redis it leaves behind *)
  FastAPILimiter_init : Redis -> world -> (exn + unit) * option Redis;
  (* RateLimiter(times, minutes).__call__(request) *)
  RateLimiter_call : Z -> Z -> Request -> world -> exn + unit;
  (* FastAPILimiter.get_remaining(request) *)
  FastAPILimiter_get_remaining : Request -> world -> exn + json;
  (* httpx.AsyncClient().post(url, json=...) *)
  httpx_post : string -> json -> world -> exn + Response;
  (* ... which encodes its payload before it opens a connection, and so
     only answers for a payload it could encode *)
  httpx_encodes : forall target sent w response,
    httpx_post target sent w = inr response -> json_compliant sent = true;
  (* the conversions pydantic applies, in its default lax mode, to a value
     that is not of the declared type: a numeric string, a boolean or a
     whole float for an integer field; a numeric string, a boolean or a
     large integer for a float field.  None: the value is refused. *)
  pydantic_int : json -> option Z;
  pydantic_float : json -> option float;
  (* time.time() *)
  time_time : world -> float;
  (* the built-in round(x, ndigits) *)
  py_round : float -> Z -> float;
  (* traceback.format_exc() while the exception is handled *)
  format_exc : exn -> string
}.

(** ** A state and exception monad *)

(** A computation runs in a world and ends with an exception or a value; the
    world it leaves is kept in both cases. *)
Definition M (A : Type) : Type := world -> (exn + A) * world.

Definition ret {A : Type} (a : A) : M A := fun w => (inr a, w).

Definition bind {A B : Type} (c : M A) (k : A -> M B) : M B :=
  fun w =>
    match c w with
    | (inr a, w') => k a w'
    | (inl e, w') => (inl e, w')
    end.

Definition raise {A : Type} (e : exn) : M A := fun w => (inl e, w).

(** [try: body  except Exception as e: handler e]. *)
Definition try_except {A : Type} (body : M A) (handler : exn -> M A) : M A :=
  fun w =>
    match body w with
    | (inr a, w') => (inr a, w')
    | (inl e, w') => handler e w'
    end.

(** The outcome of an external call that leaves the world as it is. *)
Definition ask {A : Type} (answer : world -> exn + A) : M A :=
  fun w => (answer w, w).

(** The outcome of an external call that is logged in the trace. *)
Definition call {A : Type} (ev : event) (answer : world -> exn + A) : M A :=
  fun w => (answer w, record ev w).

Declare Scope monad_scope.
Delimit Scope monad_scope with monad.
Notation "x <- c ;; k" := (bind c (fun x => k))
  (at level 100, c at next level, right associativity) : monad_scope.
Notation "c ;;; k" := (bind c (fun _ => k))
  (at level 100, right associativity) : monad_scope.
Local Open Scope monad_scope.

Definition print (line : string) : M unit :=
  fun w => (inr tt, record (Printed line) w).

(** ** The application *)

Section Application.

Variable env : Env.

(** *** The request model (lines 44-48) *)

(** What request validation reports about one field. *)
Inductive error_kind : Type := Missing | WrongType | JsonInvalid.

Record field_error : Type := {
  loc : list string;
  kind : error_kind
}.

Definition body_error (field : string) (k : error_kind) : list field_error :=
  [{| loc := ["body"; field]; kind := k |}].

(** [prompt: str]: required, any text.  The declaration puts no constraint
    on the text itself. *)
Definition validate_prompt (given : option json) : list field_error + string :=
  match given with
  | None => inl (body_error "prompt" Missing)
  | Some (JStr s) => inr s
  | Some _ => inl (body_error "prompt" WrongType)
  end.

(** [model: Optional[str] = "mistral"]. *)
Definition validate_model (given : option json) : list field_error + option string :=
  match given with
  | None => inr (Some "mistral")
  | Some JNull => inr None
  | Some (JStr s) => inr (Some s)
  | Some _ => inl (body_error "model" WrongType)
  end.

(** An integer of magnitude at most 2^53 read as a float: every such
    integer is a float, so the conversion is exact. *)
Definition float_of_Z (z : Z) : float :=
  if z <? 0 then PrimFloat.opp (PrimFloat.of_uint63 (Uint63.of_Z (- z)))
  else PrimFloat.of_uint63 (Uint63.of_Z z).

Definition converted {A : Type} (field : string) (o : option A) : list field_error + option A :=
  match o with
  | Some a => inr (Some a)
  | None => inl (body_error field WrongType)
  end.

(** [temperature: Optional[float] = 0.7]: a float is taken as it is,
    infinities and NaN included, a small integer becomes the float it
    denotes, and any other value goes through pydantic's conversion. *)
Definition validate_temperature (given : option json) : list field_error + option float :=
  match given with
  | None => inr (Some 0x1.6666666666666p-1%float)
  | Some JNull => inr None
  | Some (JFloat f) => inr (Some f)
  | Some (JInt z) =>
      if Z.abs z <=? 2 ^ 53 then inr (Some (float_of_Z z))
      else converted "temperature" (pydantic_float env (JInt z))
  | Some v => converted "temperature" (pydantic_float env v)
  end.

(** [max_tokens: Optional[int] = 1000]: any integer; the declaration gives
    no bound.  Any other value goes through pydantic's conversion. *)
Definition validate_max_tokens (given : option json) : list field_error + option Z :=
  match given with
  | None => inr (Some 1000)
  | Some JNull => inr None
  | Some (JInt z) => inr (Some z)
  | Some v => converted "max_tokens" (pydantic_int env v)
  end.

Definition errors_of {A : Type} (r : list field_error + A) : list field_error :=
  match r with
  | inl errs => errs
  | inr _ => []
  end.

(** Validation of a payload against [PromptRequest].  Values of the declared
    JSON type are accepted as they are; for the two numeric fields a value
    of another type is accepted when pydantic converts it (see
    [pydantic_int] and [pydantic_float]); a text field only takes text.
    Keys other than the four declared ones are ignored. *)
Definition PromptRequest_validate (given : json) : list field_error + PromptRequest :=
  match given with
  | JDict items =>
      let p := validate_prompt (assoc "prompt" items) in
      let m := validate_model (assoc "model" items) in
      let t := validate_temperature (assoc "temperature" items) in
      let k := validate_max_tokens (assoc "max_tokens" items) in
      match p, m, t, k with
      | inr p', inr m', inr t', inr k' =>
          inr {| prompt := p'; model := m'; temperature := t'; max_tokens := k' |}
      | _, _, _, _ => inl (errors_of p ++ errors_of m ++ errors_of t ++ errors_of k)%list
      end
  | _ => inl [{| loc := ["body"]; kind := WrongType |}]
  end.

(** *** HTTP responses *)

Inductive http_response : Type :=
| JSONResponse (status : Z) (content : json)
  (* 422, rendered by FastAPI from the validation errors *)
| RequestValidationError (errors : list field_error)
  (* 500 "Internal Server Error", for an exception no handler is registered for *)
| InternalServerError.

Definition status_of (r : http_response) : Z :=
  match r with
  | JSONResponse status _ => status
  | RequestValidationError _ => 422
  | InternalServerError => 500
  end.

(** *** Startup (lines 34-41) *)

Definition FastAPILimiter_init_call (connection : Redis) : M unit :=
  fun w =>
    let '(outcome, redis_after) := FastAPILimiter_init env connection w in
    (outcome, {| limiter_redis := redis_after; trace := trace w |}).

Definition startup : M unit :=
  try_except
    (redis_connection <- ask (redis_from_url env "redis://localhost:6379") ;;
     FastAPILimiter_init_call redis_connection ;;;
     print "✅ Redis connected successfully")
    (fun e => print ("❌ Redis connection failed: " ++ str e)).

(** *** The custom 429 handler (lines 51-56) *)

Definition rate_limit_exceeded_handler (request : Request) (exc : exn) : http_response :=
  JSONResponse 429 (JDict [("detail", JStr "Too many requests. Please slow down.")]).

(** *** Root and greet endpoints (lines 59-70) *)

Definition read_root : json :=
  JDict [("message", JStr "Welcome to the AI Code Companion Bot backend!");
         ("docs", JStr "/docs");
         ("redoc", JStr "/redoc")].

Definition greet_user (name : string) : json :=
  JDict [("greeting", JStr ("Hello, " ++ name ++ "! How can I assist you today?"))].

(** *** The generation endpoint (lines 73-115) *)

Definition ollama_url : string := "http://localhost:11434/api/generate".

(** The [json=] argument of the upstream call (lines 85-91). *)
Definition upstream_payload (req : PromptRequest) : json :=
  JDict [("model", opt_json JStr (model req));
         ("prompt", JStr (prompt req));
         ("temperature", opt_json JFloat (temperature req));
         ("max_tokens", opt_json JInt (max_tokens req));
         ("stream", JBool false)].

(** [result.get("response", "")]: [result] must be a dictionary. *)
Definition result_get (result : json) (key : string) (default : json) : M json :=
  match result with
  | JDict items =>
      ret (match assoc key items with Some v => v | None => default end)
  | _ => raise (PyError "AttributeError"
                  ("'" ++ type_name result ++ "' object has no attribute 'get'"))
  end.

(** [client.post(url, json=sent)] (lines 83-92): the request goes out, and
    is logged, when httpx can encode its payload. *)
Definition client_post (target : string) (sent : json) : M Response :=
  fun w =>
    (httpx_post env target sent w,
     if json_compliant sent then record (UpstreamPost target sent) w else w).

Definition generate_code (req : PromptRequest) (request : Request) : M json :=
  try_except
    (start_time <- ask (fun w => inr (time_time env w)) ;;
     response <- client_post ollama_url (upstream_payload req) ;;
     if negb (status_code response =? 200)
     then raise (HTTPException 500 ("Ollama error: " ++ text response))
     else
       result <- ask (fun _ => json_body response) ;;
       now <- ask (fun w => inr (time_time env w)) ;;
       let processing_time := PrimFloat.sub now start_time in
       answer <- result_get result "response" (JStr "") ;;
       remaining <- call (RemainingQueried (client request))
                         (FastAPILimiter_get_remaining env request) ;;
       ret (JDict [("response", answer);
                   ("model", opt_json JStr (model req));
                   ("processing_time_seconds", JFloat (py_round env processing_time 2));
                   ("requests_remaining", remaining)]))
    (fun e =>
       print "🔥 Error Traceback:" ;;;
       print (format_exc env e) ;;;
       raise (HTTPException 500 ("Error communicating with Ollama: " ++ str e))).

(** *** Health check (lines 119-127) *)

Definition health_check : M json :=
  fun w =>
    let redis_status :=
      match limiter_redis w with Some _ => "active" | None => "inactive" end in
    (inr (JDict [("status", JStr "healthy");
                 ("ollama_configured", JBool true);
                 ("redis_status", JStr redis_status);
                 ("timestamp", JFloat (time_time env w))]), w).

(** *** The request pipeline of POST /generate *)

(** How an exception that leaves a dependency or the endpoint becomes a
    response: the handler registered for status 429 takes an
    [HTTPException] with that status, FastAPI's default handler renders
    any other [HTTPException] as [{"detail": detail}] under its status,
    and any other exception ends as a plain 500. *)
Definition exception_response (request : Request) (e : exn) : http_response :=
  match e with
  | HTTPException status detail =>
      if status =? 429 then rate_limit_exceeded_handler request e
      else JSONResponse status (JDict [("detail", JStr detail)])
  | PyError _ _ => InternalServerError
  end.

(** [Depends(RateLimiter(times=5, minutes=1))] (line 77). *)
Definition rate_limiter (request : Request) : M unit :=
  call (RateLimiterCalled (client request)) (RateLimiter_call env 5 1 request).

(** The pipeline for a request whose body FastAPI could decode: it solves
    the dependencies of the endpoint first, then validates the body against
    [PromptRequest], then calls the endpoint; an exception raised on the
    way goes through [exception_response]. *)
Definition post_generate (request : Request) (w : world) : http_response * world :=
  match rate_limiter request w with
  | (inl e, w1) => (exception_response request e, w1)
  | (inr _, w1) =>
      match PromptRequest_validate (payload request) with
      | inl errors => (RequestValidationError errors, w1)
      | inr req =>
          match generate_code req request w1 with
          | (inr content, w2) => (JSONResponse 200 content, w2)
          | (inl e, w2) => (exception_response request e, w2)
          end
      end
  end.



End Application.

(** ** A simulated environment

    A concrete [Env], used to run the application on examples: a limiter
    that counts the earlier calls of a client, a clock that advances with
    the trace, and an upstream answer and a remaining-quota answer given as
    arguments. *)

Module Sim.

Definition calls_of (who : string) (tr : list event) : Z :=
  Z.of_nat (count_occ string_dec (rate_limiter_calls tr) who).

Definition limiter (times minutes : Z) (request : Request) (w : world) : exn + unit :=
  if times <? calls_of (client request) (trace w) + 1
  then inl (HTTPException 429 "Too Many Requests")
  else inr tt.

Definition clock (w : world) : float :=
  PrimFloat.of_uint63 (Uint63.of_Z (Z.of_nat (length (trace w)))).

Definition connect (address : string) (w : world) : exn + Redis :=
  inr {| url := address |}.

(** An [init] that stores the connection and succeeds. *)
Definition init_ok (connection : Redis) (w : world) : (exn + unit) * option Redis :=
  (inr tt, Some connection).

(** An [init] that stores the connection on the class and then fails on its
    first round trip to the server, as fastapi-limiter's does (it assigns
    [cls.redis] before it loads its script). *)
Definition init_unreachable (connection : Redis) (w : world) : (exn + unit) * option Redis :=
  (inl (PyError "ConnectionError" "Error 111 connecting to localhost:6379. Connection refused."),
   Some connection).

(** An httpx that gives the same answer to every payload it can encode,
    and raises on the others. *)
Definition post (upstream : exn + Response) (target : string) (sent : json) (w : world)
    : exn + Response :=
  if json_compliant sent then upstream
  else inl (PyError "ValueError" "Out of range float values are not JSON compliant").

Lemma post_encodes (upstream : exn + Response) (target : string) (sent : json) (w : world)
    (response : Response) :
  post upstream target sent w = inr response -> json_compliant sent = true.
Proof. unfold post. destruct (json_compliant sent); [reflexivity | discriminate]. Qed.

(** Booleans as numbers; no other conversion. *)
Definition int_of (v : json) : option Z :=
  match v with
  | JBool b => Some (if b then 1 else 0)
  | _ => None
  end.

Definition float_of (v : json) : option float :=
  match v with
  | JBool b => Some (if b then 1%float else 0%float)
  | _ => None
  end.

Definition make (init : Redis -> world -> (exn + unit) * option Redis)
    (upstream : exn + Response) (remaining : exn + json) : Env :=
  {| redis_from_url := connect;
     FastAPILimiter_init := init;
     RateLimiter_call := limiter;
     FastAPILimiter_get_remaining := fun _ _ => remaining;
     httpx_post := post upstream;
     httpx_encodes := post_encodes upstream;
     pydantic_int := int_of;
     pydantic_float := float_of;
     time_time := clock;
     py_round := fun x _ => x;
     format_exc := fun e => "Traceback (most recent call last): " ++ str e |}.



Definition answer (code : Z) (raw : string) (decoded : json) : exn + Response :=
  inr {| status_code := code; text := raw; json_body := inr decoded |}.

Definition fresh : world := {| limiter_redis := None; trace := [] |}.

(** A world in which the client has already been through the limiter
    [n] times. *)
Definition busy (who : string) (n : nat) : world :=
  {| limiter_redis := Some {| url := "redis://localhost:6379" |};
     trace := repeat (RateLimiterCalled who) n |}.

End Sim.

(** ** Properties *)

Definition contains (s sub : string) : Prop :=
  exists before after, s = before ++ sub ++ after.

Lemma contains_suffix (before sub : string) : contains (before ++ sub) sub.
Proof.
  exists before, "". f_equal.
  induction sub as [|c sub IH]; simpl; [reflexivity | now rewrite <- IH].
Qed.

(** C1: a request the rate limiter rejects with status 429 is answered 429
    with the body [{"detail": "Too many requests. Please slow down."}], and
    no upstream call is made for it: the trace only gains the limiter call. *)
Theorem rate_limited_request_gets_429 (env : Env) (request : Request) (w : world)
    (detail : string) :
  RateLimiter_call env 5 1 request w = inl (HTTPException 429 detail) ->
  post_generate env request w =
    (JSONResponse 429 (JDict [("detail", JStr "Too many requests. Please slow down.")]),
     record (RateLimiterCalled (client request)) w)
  /\ upstream_posts (trace (snd (post_generate env request w))) = upstream_posts (trace w).
Proof.
  intros Hreject.
  assert (Hrun : post_generate env request w =
    (JSONResponse 429 (JDict [("detail", JStr "Too many requests. Please slow down.")]),
     record (RateLimiterCalled (client request)) w)).
  { unfold post_generate, rate_limiter, call. rewrite Hreject. reflexivity. }
  split; [exact Hrun | now rewrite Hrun].
Qed.

(** The sixth request of a client within the window, in the simulated
    environment. *)
Lemma rate_limited_request_gets_429_witness :
  let env := Sim.make Sim.init_ok (Sim.answer 200 "{}" (JDict [])) (inr (JInt 0)) in
  let request := {| client := "203.0.113.7"; payload := JDict [("prompt", JStr "hi")] |} in
  let w := Sim.busy "203.0.113.7" 5 in
  post_generate env request w =
    (JSONResponse 429 (JDict [("detail", JStr "Too many requests. Please slow down.")]),
     record (RateLimiterCalled (client request)) w)
  /\ upstream_posts (trace (snd (post_generate env request w))) = upstream_posts (trace w).
Proof.
  intros env request w.
  apply (rate_limited_request_gets_429 env request w "Too Many Requests").
  reflexivity.
Defined.

(** *** The generation endpoint, case by case *)

(** What the [except] clause of [generate_code] does with an exception. *)
Lemma generate_code_handler (env : Env) (e : exn) (w : world) :
  (print "🔥 Error Traceback:" ;;;
   print (format_exc env e) ;;;
   raise (A := json)
     (HTTPException 500 ("Error communicating with Ollama: " ++ str e))) w =
  (inl (HTTPException 500 ("Error communicating with Ollama: " ++ str e)),
   record (Printed (format_exc env e)) (record (Printed "🔥 Error Traceback:") w)).
Proof. reflexivity. Qed.

(** The world once the limiter dependency has been called, and the one in
    which the upstream answer arrives: the request appears in it when httpx
    could encode it. *)
Definition after_rate_limiter (request : Request) (w : world) : world :=
  record (RateLimiterCalled (client request)) w.

Definition after_upstream_post (req : PromptRequest) (request : Request) (w : world) : world :=
  if json_compliant (upstream_payload req)
  then record (UpstreamPost ollama_url (upstream_payload req)) (after_rate_limiter request w)
  else after_rate_limiter request w.

(** The world after the two lines of the [except] clause were printed. *)
Definition after_traceback (env : Env) (cause : exn) (w : world) : world :=
  record (Printed (format_exc env cause)) (record (Printed "🔥 Error Traceback:") w).

Definition wrapped_500 (cause : exn) : http_response :=
  JSONResponse 500
    (JDict [("detail", JStr ("Error communicating with Ollama: " ++ str cause))]).

(** A payload that httpx answered for was one it could encode. *)
Lemma answered_is_compliant (env : Env) (target : string) (sent : json) (w : world)
    (response : Response) :
  httpx_post env target sent w = inr response -> json_compliant sent = true.
Proof. exact (httpx_encodes env target sent w response). Qed.

Definition posted (req : PromptRequest) (w : world) : world :=
  if json_compliant (upstream_payload req)
  then record (UpstreamPost ollama_url (upstream_payload req)) w
  else w.

(** How the endpoint ends when [cause] leaves its [try] block in world [w]. *)
Definition failure (env : Env) (cause : exn) (w : world) : (exn + json) * world :=
  (inl (HTTPException 500 ("Error communicating with Ollama: " ++ str cause)),
   after_traceback env cause w).

(** The endpoint along the answers of its collaborators: the upstream call,
    its status, the decoding of its body, the shape of the decoded value,
    the remaining-quota lookup. *)
Lemma generate_code_run (env : Env) (req : PromptRequest) (request : Request) (w : world) :
  generate_code env req request w =
  match httpx_post env ollama_url (upstream_payload req) w with
  | inl cause => failure env cause (posted req w)
  | inr response =>
      if status_code response =? 200 then
        match json_body response with
        | inl cause => failure env cause (posted req w)
        | inr (JDict fields) =>
            match FastAPILimiter_get_remaining env request (posted req w) with
            | inl cause =>
                failure env cause (record (RemainingQueried (client request)) (posted req w))
            | inr remaining =>
                (inr (JDict [("response",
                              match assoc "response" fields with
                              | Some v => v
                              | None => JStr ""
                              end);
                             ("model", opt_json JStr (model req));
                             ("processing_time_seconds",
                              JFloat (py_round env
                                        (PrimFloat.sub (time_time env (posted req w))
                                                       (time_time env w)) 2));
                             ("requests_remaining", remaining)]),
                 record (RemainingQueried (client request)) (posted req w))
            end
        | inr other =>
            failure env
              (PyError "AttributeError"
                 ("'" ++ type_name other ++ "' object has no attribute 'get'"))
              (posted req w)
        end
      else failure env (HTTPException 500 ("Ollama error: " ++ text response)) (posted req w)
  end.
Proof.
  unfold generate_code, try_except, bind, ask, client_post, call, result_get, ret, raise,
    failure, posted.
  destruct (httpx_post env ollama_url (upstream_payload req) w) as [cause | response];
    [reflexivity |].
  destruct (status_code response =? 200); simpl; [| reflexivity].
  destruct (json_body response) as [cause | result]; simpl; [reflexivity |].
  destruct result; simpl; try reflexivity.
  destruct (FastAPILimiter_get_remaining env request _); reflexivity.
Qed.

(** Whatever goes wrong inside the endpoint leaves it as an
    [HTTPException] with status 500. *)
Lemma generate_code_raises (env : Env) (req : PromptRequest) (request : Request)
    (w w' : world) (e : exn) :
  generate_code env req request w = (inl e, w') ->
  exists detail, e = HTTPException 500 detail.
Proof.
  unfold generate_code, try_except.
  match goal with
  | |- context [match ?body w with _ => _ end] => destruct (body w) as [[e0 | content] w0]
  end.
  - rewrite generate_code_handler. intros H. inversion H. eauto.
  - discriminate.
Qed.

(** When the endpoint returns, the backend answered 200 with a JSON object,
    the lookup returned, and the dictionary is the one of lines 100-105. *)
Lemma generate_code_returns (env : Env) (req : PromptRequest) (request : Request)
    (w w' : world) (content : json) :
  generate_code env req request w = (inr content, w') ->
  exists response fields remaining,
    httpx_post env ollama_url (upstream_payload req) w = inr response
    /\ status_code response = 200
    /\ json_body response = inr (JDict fields)
    /\ FastAPILimiter_get_remaining env request (posted req w) = inr remaining
    /\ content =
         JDict [("response",
                 match assoc "response" fields with Some v => v | None => JStr "" end);
                ("model", opt_json JStr (model req));
                ("processing_time_seconds",
                 JFloat (py_round env
                           (PrimFloat.sub (time_time env (posted req w)) (time_time env w))
                           2));
                ("requests_remaining", remaining)].
Proof.
  rewrite generate_code_run. unfold failure.
  destruct (httpx_post env ollama_url (upstream_payload req) w) as [cause | response]
    eqn:Hpost; [discriminate |].
  destruct (status_code response =? 200) eqn:Hstatus; [| discriminate].
  apply Z.eqb_eq in Hstatus.
  destruct (json_body response) as [cause | result] eqn:Hjson; [discriminate |].
  destruct result; try discriminate.
  destruct (FastAPILimiter_get_remaining env request _) as [cause | remaining] eqn:Hremaining;
    [discriminate |].
  intros H. inversion H. exists response, items, remaining. repeat split; assumption.
Qed.

(** The pipeline once the limiter has admitted a request with a valid
    payload. *)
Lemma post_generate_admitted (env : Env) (request : Request) (req : PromptRequest)
    (w : world) :
  RateLimiter_call env 5 1 request w = inr tt ->
  PromptRequest_validate env (payload request) = inr req ->
  post_generate env request w =
    match generate_code env req request (after_rate_limiter request w) with
    | (inr content, w2) => (JSONResponse 200 content, w2)
    | (inl e, w2) => (exception_response request e, w2)
    end.
Proof.
  intros Hadmit Hvalid. unfold post_generate, rate_limiter, call.
  now rewrite Hadmit, Hvalid.
Qed.

(** C3: when the limiter admits a valid request and the upstream backend
    answers with a status other than 200, the endpoint answers 500 and the
    detail contains "Ollama error: " followed by the upstream body text.
    The exception raised on line 95 is caught by the [except] clause of the
    same function, so the detail is that text behind the prefix of line 114
    and the rendering of the caught exception. *)
Theorem upstream_failure_gets_500 (env : Env) (request : Request) (req : PromptRequest)
    (w : world) (response : Response) :
  RateLimiter_call env 5 1 request w = inr tt ->
  PromptRequest_validate env (payload request) = inr req ->
  httpx_post env ollama_url (upstream_payload req) (after_rate_limiter request w) = inr response ->
  status_code response <> 200 ->
  exists detail,
    fst (post_generate env request w) = JSONResponse 500 (JDict [("detail", JStr detail)])
    /\ detail = "Error communicating with Ollama: 500: " ++ "Ollama error: " ++ text response
    /\ contains detail ("Ollama error: " ++ text response).
Proof.
  intros Hadmit Hvalid Hpost Hstatus.
  exists ("Error communicating with Ollama: 500: " ++ "Ollama error: " ++ text response).
  split; [| split; [reflexivity | apply contains_suffix]].
  rewrite (post_generate_admitted env request req w Hadmit Hvalid).
  rewrite generate_code_run, Hpost.
  apply Z.eqb_neq in Hstatus. rewrite Hstatus. reflexivity.
Qed.

(** The backend answers 503 to the first request of a client. *)
Lemma upstream_failure_gets_500_witness :
  let env := Sim.make Sim.init_ok
               (inr {| status_code := 503; text := "model not loaded";
                       json_body := inl (PyError "JSONDecodeError" "Expecting value") |})
               (inr (JInt 4)) in
  let request := {| client := "203.0.113.7"; payload := JDict [("prompt", JStr "hi")] |} in
  exists detail,
    fst (post_generate env request Sim.fresh) =
      JSONResponse 500 (JDict [("detail", JStr detail)])
    /\ detail = "Error communicating with Ollama: 500: " ++ "Ollama error: " ++ "model not loaded"
    /\ contains detail ("Ollama error: " ++ "model not loaded").
Proof.
  intros env request.
  refine (upstream_failure_gets_500 env request
            {| prompt := "hi"; model := Some "mistral";
               temperature := Some 0x1.6666666666666p-1%float; max_tokens := Some 1000 |}
            Sim.fresh
            {| status_code := 503; text := "model not loaded";
               json_body := inl (PyError "JSONDecodeError" "Expecting value") |}
            _ _ _ _).
  - reflexivity.
  - reflexivity.
  - reflexivity.
  - simpl. lia.
Defined.

(** C9: the greet endpoint answers the greeting built around the name it is
    given; for the name "world" this is "Hello, world! How can I assist you
    today?". *)
Theorem greet_user_greeting (name : string) :
  greet_user name =
    JDict [("greeting", JStr ("Hello, " ++ name ++ "! How can I assist you today?"))]
  /\ greet_user "world" =
    JDict [("greeting", JStr "Hello, world! How can I assist you today?")].
Proof. split; reflexivity. Qed.

(** *** What validation makes of the payload *)

(** A valid payload is a dictionary. *)
Lemma valid_payload_is_dict (env : Env) (given : json) (req : PromptRequest) :
  PromptRequest_validate env given = inr req -> exists items, given = JDict items.
Proof. destruct given; try discriminate. eauto. Qed.

(** Each attribute of the validated request comes from the validator of
    its own field. *)
Lemma valid_payload_fields (env : Env) (items : list (string * json)) (req : PromptRequest) :
  PromptRequest_validate env (JDict items) = inr req ->
  validate_prompt (assoc "prompt" items) = inr (prompt req)
  /\ validate_model (assoc "model" items) = inr (model req)
  /\ validate_temperature env (assoc "temperature" items) = inr (temperature req)
  /\ validate_max_tokens env (assoc "max_tokens" items) = inr (max_tokens req).
Proof.
  unfold PromptRequest_validate.
  destruct (validate_prompt (assoc "prompt" items)) as [e1 | p];
    destruct (validate_model (assoc "model" items)) as [e2 | m];
    destruct (validate_temperature env (assoc "temperature" items)) as [e3 | t];
    destruct (validate_max_tokens env (assoc "max_tokens" items)) as [e4 | k];
    try discriminate.
  intros H. inversion H. simpl. repeat split.
Qed.

(** The model of a validated request, as JSON, is the [model] value of the
    payload when it has one, and "mistral" otherwise. *)
Lemma valid_payload_model (env : Env) (items : list (string * json)) (req : PromptRequest) :
  PromptRequest_validate env (JDict items) = inr req ->
  opt_json JStr (model req) =
    match assoc "model" items with Some named => named | None => JStr "mistral" end.
Proof.
  intros Hvalid. apply valid_payload_fields in Hvalid as (_ & Hmodel & _).
  unfold validate_model in Hmodel.
  destruct (assoc "model" items) as [[| | | | name | |] |];
    try discriminate; inversion Hmodel; reflexivity.
Qed.

(** C10: when the limiter admits a request and the answer has status 200,
    the payload was valid and the [model] entry of the answer is the
    [model] value of the payload itself, text or [null], and "mistral" when
    the payload names none; the upstream body plays no part in it. *)
Theorem model_is_echoed (env : Env) (request : Request) (w : world) :
  RateLimiter_call env 5 1 request w = inr tt ->
  status_of (fst (post_generate env request w)) = 200 ->
  exists req given items,
    payload request = JDict given
    /\ PromptRequest_validate env (payload request) = inr req
    /\ fst (post_generate env request w) = JSONResponse 200 (JDict items)
    /\ assoc "model" items = Some (opt_json JStr (model req))
    /\ assoc "model" items =
         Some (match assoc "model" given with
               | Some named => named
               | None => JStr "mistral"
               end).
Proof.
  intros Hadmit.
  destruct (PromptRequest_validate env (payload request)) as [errors | req] eqn:Hvalid.
  - unfold post_generate, rate_limiter, call. rewrite Hadmit, Hvalid. discriminate.
  - rewrite (post_generate_admitted env request req w Hadmit Hvalid).
    destruct (generate_code env req request _) as [[e | content] w2] eqn:Hcode.
    + apply generate_code_raises in Hcode as [detail ->]. discriminate.
    + apply generate_code_returns in Hcode
        as (response & fields & remaining & _ & _ & _ & _ & ->).
      intros _. destruct (valid_payload_is_dict env _ req Hvalid) as [given Hgiven].
      exists req, given. eexists. repeat split; try eassumption.
      rewrite Hgiven in Hvalid. simpl. f_equal.
      exact (valid_payload_model env given req Hvalid).
Qed.

(** A request that names its model; the backend says another name. *)
Lemma model_is_echoed_witness :
  let env := Sim.make Sim.init_ok
               (Sim.answer 200 "{}" (JDict [("response", JStr "print(1)");
                                            ("model", JStr "llama3")]))
               (inr (JInt 4)) in
  let request := {| client := "203.0.113.7";
                    payload := JDict [("prompt", JStr "hi"); ("model", JStr "codellama")] |} in
  exists req given items,
    payload request = JDict given
    /\ PromptRequest_validate env (payload request) = inr req
    /\ fst (post_generate env request Sim.fresh) = JSONResponse 200 (JDict items)
    /\ assoc "model" items = Some (opt_json JStr (model req))
    /\ assoc "model" items =
         Some (match assoc "model" given with
               | Some named => named
               | None => JStr "mistral"
               end).
Proof.
  intros env request.
  apply (model_is_echoed env request Sim.fresh); reflexivity.
Defined.

(** *** Validation and the order of the pipeline *)

(** Counterexample to C4 as stated: a payload without [prompt] fails
    validation, and the limiter has been called for the client all the
    same. *)
Lemma missing_prompt_reaches_rate_limiter :
  let env := Sim.make Sim.init_ok (Sim.answer 200 "{}" (JDict [])) (inr (JInt 4)) in
  let request := {| client := "203.0.113.7"; payload := JDict [("model", JStr "mistral")] |} in
  assoc "prompt" [("model", JStr "mistral")] = None
  /\ post_generate env request Sim.fresh =
       (RequestValidationError [{| loc := ["body"; "prompt"]; kind := Missing |}],
        {| limiter_redis := None; trace := [RateLimiterCalled "203.0.113.7"] |})
  /\ rate_limiter_calls (trace (snd (post_generate env request Sim.fresh)))
       <> rate_limiter_calls (trace Sim.fresh).
Proof. repeat split. discriminate. Qed.

(** C4, amended: a payload without [prompt] fails validation, and a request
    whose payload fails validation never reaches the upstream backend; the
    limiter dependency, however, runs before the payload is validated: it
    is called once for the client, and the answer is the validation error
    when it lets the request through and its own error when it does not. *)
Theorem invalid_payload_stops_after_rate_limiter (env : Env) (request : Request)
    (w : world) (errors : list field_error) :
  PromptRequest_validate env (payload request) = inl errors ->
  snd (post_generate env request w) = after_rate_limiter request w
  /\ rate_limiter_calls (trace (snd (post_generate env request w)))
       = client request :: rate_limiter_calls (trace w)
  /\ upstream_posts (trace (snd (post_generate env request w))) = upstream_posts (trace w)
  /\ fst (post_generate env request w) =
       match RateLimiter_call env 5 1 request w with
       | inr _ => RequestValidationError errors
       | inl e => exception_response request e
       end
  /\ (forall items, payload request = JDict items -> assoc "prompt" items = None ->
      In {| loc := ["body"; "prompt"]; kind := Missing |} errors).
Proof.
  intros Hinvalid.
  assert (Hworld : snd (post_generate env request w) = after_rate_limiter request w).
  { unfold post_generate, rate_limiter, call. rewrite Hinvalid.
    destruct (RateLimiter_call env 5 1 request w); reflexivity. }
  rewrite Hworld. repeat split.
  - unfold post_generate, rate_limiter, call. rewrite Hinvalid.
    destruct (RateLimiter_call env 5 1 request w); reflexivity.
  - intros items Hpayload Habsent. rewrite Hpayload in Hinvalid.
    unfold PromptRequest_validate in Hinvalid. rewrite Habsent in Hinvalid.
    simpl in Hinvalid.
    destruct (validate_model _), (validate_temperature _), (validate_max_tokens _);
      inversion Hinvalid; left; reflexivity.
Qed.

Lemma invalid_payload_stops_after_rate_limiter_witness :
  let env := Sim.make Sim.init_ok (Sim.answer 200 "{}" (JDict [])) (inr (JInt 4)) in
  let request := {| client := "203.0.113.7"; payload := JDict [("model", JStr "mistral")] |} in
  let errors := [{| loc := ["body"; "prompt"]; kind := Missing |}] in
  snd (post_generate env request Sim.fresh) = after_rate_limiter request Sim.fresh
  /\ rate_limiter_calls (trace (snd (post_generate env request Sim.fresh)))
       = client request :: rate_limiter_calls (trace Sim.fresh)
  /\ upstream_posts (trace (snd (post_generate env request Sim.fresh)))
       = upstream_posts (trace Sim.fresh)
  /\ fst (post_generate env request Sim.fresh) =
       match RateLimiter_call env 5 1 request Sim.fresh with
       | inr _ => RequestValidationError errors
       | inl e => exception_response request e
       end
  /\ (forall items, payload request = JDict items -> assoc "prompt" items = None ->
      In {| loc := ["body"; "prompt"]; kind := Missing |} errors).
Proof.
  intros env request errors.
  apply (invalid_payload_stops_after_rate_limiter env request Sim.fresh errors).
  reflexivity.
Defined.


(** Whether httpx can encode the upstream payload depends on the
    temperature alone. *)
Definition finite_temperature (t : option float) : bool :=
  match t with
  | Some f => PrimFloat.is_finite f
  | None => true
  end.

Lemma upstream_payload_compliant (req : PromptRequest) :
  json_compliant (upstream_payload req) = finite_temperature (temperature req).
Proof.
  unfold upstream_payload, finite_temperature. simpl.
  destruct (model req), (temperature req) as [f |], (max_tokens req); simpl;
    try reflexivity; now rewrite Bool.andb_true_r.
Qed.





(** *** A successful upstream answer *)

(** C6: the code does not do what the claim says.  The backend answers 200
    with a JSON object, and the endpoint has taken the default for its
    missing [response] field, when line 104 looks up the remaining quota;
    when that lookup raises, the catch-all of the endpoint turns the whole
    request into a 500.  The published fastapi-limiter has no
    [FastAPILimiter.get_remaining], so the lookup raises [AttributeError]
    on every request that gets this far. *)
Theorem failed_lookup_turns_success_into_500 (env : Env) (request : Request)
    (req : PromptRequest) (w : world) (response : Response)
    (fields : list (string * json)) (cause : exn) :
  RateLimiter_call env 5 1 request w = inr tt ->
  PromptRequest_validate env (payload request) = inr req ->
  httpx_post env ollama_url (upstream_payload req) (after_rate_limiter request w)
    = inr response ->
  status_code response = 200 ->
  json_body response = inr (JDict fields) ->
  FastAPILimiter_get_remaining env request (after_upstream_post req request w)
    = inl cause ->
  fst (post_generate env request w) =
    JSONResponse 500
      (JDict [("detail", JStr ("Error communicating with Ollama: " ++ str cause))])
  /\ status_of (fst (post_generate env request w)) <> 200.
Proof.
  intros Hadmit Hvalid Hpost Hstatus Hjson Hlookup.
  rewrite (post_generate_admitted env request req w Hadmit Hvalid).
  rewrite generate_code_run, Hpost, Hstatus, Hjson. simpl.
  change (posted req (after_rate_limiter request w))
    with (after_upstream_post req request w).
  rewrite Hlookup. simpl. split; [reflexivity | discriminate].
Qed.

(** The failing input: a first request, answered 200 by the backend with an
    object that has no [response] field, against a limiter without
    [get_remaining]. *)
Lemma failed_lookup_turns_success_into_500_witness :
  let cause := PyError "AttributeError"
                 "type object 'FastAPILimiter' has no attribute 'get_remaining'" in
  let env := Sim.make Sim.init_ok
               (Sim.answer 200 "{}" (JDict [("done", JBool true)])) (inl cause) in
  let request := {| client := "203.0.113.7"; payload := JDict [("prompt", JStr "hi")] |} in
  fst (post_generate env request Sim.fresh) =
    JSONResponse 500
      (JDict [("detail",
               JStr ("Error communicating with Ollama: " ++
                     "type object 'FastAPILimiter' has no attribute 'get_remaining'"))])
  /\ status_of (fst (post_generate env request Sim.fresh)) <> 200.
Proof.
  intros cause env request.
  apply (failed_lookup_turns_success_into_500 env request
           {| prompt := "hi"; model := Some "mistral";
              temperature := Some 0x1.6666666666666p-1%float; max_tokens := Some 1000 |}
           Sim.fresh
           {| status_code := 200; text := "{}";
              json_body := inr (JDict [("done", JBool true)]) |}
           [("done", JBool true)] cause); reflexivity.
Defined.

(** *** The processing time *)




(** *** Startup and the health probe *)

(** C8: the code does not do what the claim says.  When [redis.from_url]
    hands out a connection and [FastAPILimiter.init] stores it before it
    fails on the unreachable server, startup catches the failure and
    returns (the process starts), it prints the line that says the
    connection failed, and the health probe that follows nevertheless
    answers [redis_status] "active": line 121 only tests whether the
    attribute is set. *)
Theorem failed_init_is_reported_active (env : Env) (w : world) (connection stored : Redis)
    (cause : exn) :
  redis_from_url env "redis://localhost:6379" w = inr connection ->
  FastAPILimiter_init env connection w = (inl cause, Some stored) ->
  fst (startup env w) = inr tt
  /\ trace (snd (startup env w)) =
       Printed ("❌ Redis connection failed: " ++ str cause) :: trace w
  /\ exists items,
       fst (health_check env (snd (startup env w))) = inr (JDict items)
       /\ assoc "status" items = Some (JStr "healthy")
       /\ assoc "ollama_configured" items = Some (JBool true)
       /\ assoc "redis_status" items = Some (JStr "active").
Proof.
  intros Hconnect Hinit.
  unfold startup, try_except, bind, ask, FastAPILimiter_init_call, print.
  rewrite Hconnect, Hinit. simpl.
  repeat split. eexists. repeat split.
Qed.

(** The failing input: no Redis server listens on localhost:6379 when the
    application starts.  (The text of the connection error is the client
    library's and plays no part.) *)
Lemma failed_init_is_reported_active_witness :
  let env := Sim.make Sim.init_unreachable (Sim.answer 200 "{}" (JDict [])) (inr (JInt 4)) in
  let cause := PyError "ConnectionError"
                 "Error 111 connecting to localhost:6379. Connection refused." in
  fst (startup env Sim.fresh) = inr tt
  /\ trace (snd (startup env Sim.fresh)) =
       Printed ("❌ Redis connection failed: " ++ str cause) :: trace Sim.fresh
  /\ exists items,
       fst (health_check env (snd (startup env Sim.fresh))) = inr (JDict items)
       /\ assoc "status" items = Some (JStr "healthy")
       /\ assoc "ollama_configured" items = Some (JBool true)
       /\ assoc "redis_status" items = Some (JStr "active").
Proof.
  intros env cause.
  apply (failed_init_is_reported_active env Sim.fresh
           {| url := "redis://localhost:6379" |} {| url := "redis://localhost:6379" |}
           cause); reflexivity.
Defined.

(** ** Further properties of the generation endpoint *)

(** The lines printed and the remaining-quota lookups found in a trace. *)
Fixpoint printed_lines (tr : list event) : list string :=
  match tr with
  | [] => []
  | Printed line :: rest => line :: printed_lines rest
  | _ :: rest => printed_lines rest
  end.

Fixpoint remaining_queries (tr : list event) : list string :=
  match tr with
  | [] => []
  | RemainingQueried who :: rest => who :: remaining_queries rest
  | _ :: rest => remaining_queries rest
  end.



(** The traces the endpoint leaves: it never calls the limiter dependency,
    and it sends the upstream request once when httpx can encode it. *)
Lemma generate_code_trace (env : Env) (req : PromptRequest) (request : Request) (w : world) :
  rate_limiter_calls (trace (snd (generate_code env req request w)))
    = rate_limiter_calls (trace w)
  /\ upstream_posts (trace (snd (generate_code env req request w)))
       = if json_compliant (upstream_payload req)
         then (ollama_url, upstream_payload req) :: upstream_posts (trace w)
         else upstream_posts (trace w).
Proof.
  rewrite generate_code_run. unfold failure, after_traceback, posted.
  destruct (json_compliant (upstream_payload req));
    destruct (httpx_post env ollama_url (upstream_payload req) w) as [e | response];
    simpl; try (split; reflexivity);
    destruct (status_code response =? 200); simpl; try (split; reflexivity);
    destruct (json_body response) as [e | result]; simpl; try (split; reflexivity);
    destruct result; simpl; try (split; reflexivity);
    destruct (FastAPILimiter_get_remaining env request _); simpl; split; reflexivity.
Qed.



(** X2: one request goes out to http://localhost:11434/api/generate, with
    the model, prompt, temperature and max_tokens of the validated request
    and [stream] false, when the limiter admits the request, its payload
    is valid and its temperature is a finite number; none goes out
    otherwise, and none is ever repeated, however the call ends. *)
Theorem one_upstream_request_iff_admitted_valid_and_finite (env : Env)
    (request : Request) (w : world) :
  upstream_posts (trace (snd (post_generate env request w))) =
    match RateLimiter_call env 5 1 request w,
          PromptRequest_validate env (payload request) with
    | inr _, inr req =>
        if finite_temperature (temperature req)
        then ("http://localhost:11434/api/generate",
              JDict [("model", opt_json JStr (model req));
                     ("prompt", JStr (prompt req));
                     ("temperature", opt_json JFloat (temperature req));
                     ("max_tokens", opt_json JInt (max_tokens req));
                     ("stream", JBool false)]) :: upstream_posts (trace w)
        else upstream_posts (trace w)
    | _, _ => upstream_posts (trace w)
    end.
Proof.
  unfold post_generate, rate_limiter, call.
  destruct (RateLimiter_call env 5 1 request w) as [e | []]; [reflexivity |].
  destruct (PromptRequest_validate env (payload request)) as [errors | req]; [reflexivity |].
  pose proof (generate_code_trace env req request
                (record (RateLimiterCalled (client request)) w)) as (_ & Hposts).
  rewrite upstream_payload_compliant in Hposts.
  destruct (generate_code env req request _) as [[e | content] w2]; exact Hposts.
Qed.


(** X4: POST /generate answers 429 only when the limiter dependency raised
    an [HTTPException] with that status; the endpoint itself never does,
    and no upstream call was made for such a request. *)
Theorem status_429_only_from_limiter (env : Env) (request : Request) (w : world) :
  status_of (fst (post_generate env request w)) = 429 ->
  (exists detail, RateLimiter_call env 5 1 request w = inl (HTTPException 429 detail))
  /\ upstream_posts (trace (snd (post_generate env request w))) = upstream_posts (trace w).
Proof.
  unfold post_generate, rate_limiter, call.
  destruct (RateLimiter_call env 5 1 request w) as [[status detail | cls message] | []];
    simpl.
  - destruct (status =? 429) eqn:Hstatus; simpl; intros H.
    + apply Z.eqb_eq in Hstatus. subst status. split; [eauto | reflexivity].
    + apply Z.eqb_neq in Hstatus. contradiction.
  - discriminate.
  - destruct (PromptRequest_validate env (payload request)) as [errors | req]; simpl;
      [discriminate |].
    destruct (generate_code env req request _) as [[e | content] w2] eqn:Hcode; simpl.
    + apply generate_code_raises in Hcode as [detail ->]. simpl. discriminate.
    + discriminate.
Qed.

Lemma status_429_only_from_limiter_witness :
  let env := Sim.make Sim.init_ok (Sim.answer 200 "{}" (JDict [])) (inr (JInt 0)) in
  let request := {| client := "203.0.113.7"; payload := JDict [("prompt", JStr "hi")] |} in
  let w := Sim.busy "203.0.113.7" 5 in
  (exists detail, RateLimiter_call env 5 1 request w = inl (HTTPException 429 detail))
  /\ upstream_posts (trace (snd (post_generate env request w))) = upstream_posts (trace w).
Proof.
  intros env request w.
  apply (status_429_only_from_limiter env request w). reflexivity.
Defined.

(** X5: when the upstream call itself raises (the backend cannot be
    reached, say), the request is answered 500 with the message of that
    exception behind "Error communicating with Ollama: ", the traceback is
    printed, and the remaining-quota lookup is not made. *)
Theorem transport_failure_gets_500 (env : Env) (request : Request) (req : PromptRequest)
    (w : world) (cause : exn) :
  RateLimiter_call env 5 1 request w = inr tt ->
  PromptRequest_validate env (payload request) = inr req ->
  httpx_post env ollama_url (upstream_payload req) (after_rate_limiter request w)
    = inl cause ->
  post_generate env request w =
    (wrapped_500 cause, after_traceback env cause (after_upstream_post req request w))
  /\ remaining_queries (trace (snd (post_generate env request w)))
       = remaining_queries (trace w).
Proof.
  intros Hadmit Hvalid Hpost.
  assert (Hrun : post_generate env request w =
    (wrapped_500 cause, after_traceback env cause (after_upstream_post req request w))).
  { rewrite (post_generate_admitted env request req w Hadmit Hvalid).
    rewrite generate_code_run, Hpost. reflexivity. }
  split; [exact Hrun |]. rewrite Hrun.
  unfold after_traceback, after_upstream_post.
  destruct (json_compliant (upstream_payload req)); reflexivity.
Qed.

Lemma transport_failure_gets_500_witness :
  let cause := PyError "ConnectError" "All connection attempts failed" in
  let env := Sim.make Sim.init_ok (inl cause) (inr (JInt 4)) in
  let request := {| client := "203.0.113.7"; payload := JDict [("prompt", JStr "hi")] |} in
  let req := {| prompt := "hi"; model := Some "mistral";
                temperature := Some 0x1.6666666666666p-1%float; max_tokens := Some 1000 |} in
  post_generate env request Sim.fresh =
    (wrapped_500 cause,
     after_traceback env cause (after_upstream_post req request Sim.fresh))
  /\ remaining_queries (trace (snd (post_generate env request Sim.fresh)))
       = remaining_queries (trace Sim.fresh).
Proof.
  intros cause env request req.
  apply (transport_failure_gets_500 env request req Sim.fresh cause); reflexivity.
Defined.

(** X6: when the backend answers 200 with a body that [response.json()]
    cannot decode, or that decodes to something other than an object, the
    request is answered 500 inside the same envelope, and the
    remaining-quota lookup is not made. *)
Theorem unusable_upstream_body_gets_500 (env : Env) (request : Request)
    (req : PromptRequest) (w : world) (response : Response) :
  RateLimiter_call env 5 1 request w = inr tt ->
  PromptRequest_validate env (payload request) = inr req ->
  httpx_post env ollama_url (upstream_payload req) (after_rate_limiter request w)
    = inr response ->
  status_code response = 200 ->
  (forall fields, json_body response <> inr (JDict fields)) ->
  (exists cause,
     post_generate env request w =
       (wrapped_500 cause, after_traceback env cause (after_upstream_post req request w))
     /\ match json_body response with
        | inl e => cause = e
        | inr _ => exists message, cause = PyError "AttributeError" message
        end)
  /\ remaining_queries (trace (snd (post_generate env request w)))
       = remaining_queries (trace w).
Proof.
  intros Hadmit Hvalid Hpost Hstatus Hshape.
  assert (Hrun : exists cause,
     post_generate env request w =
       (wrapped_500 cause, after_traceback env cause (after_upstream_post req request w))
     /\ match json_body response with
        | inl e => cause = e
        | inr _ => exists message, cause = PyError "AttributeError" message
        end).
  { rewrite (post_generate_admitted env request req w Hadmit Hvalid).
    rewrite generate_code_run, Hpost, Hstatus. simpl.
    destruct (json_body response) as [e | result] eqn:Hjson.
    - exists e. split; reflexivity.
    - destruct result;
        try (eexists (PyError "AttributeError" _);
             split; [reflexivity | eexists; reflexivity]).
      exfalso. eapply Hshape. reflexivity. }
  split; [exact Hrun |].
  destruct Hrun as (cause & -> & _).
  unfold after_traceback, after_upstream_post.
  destruct (json_compliant (upstream_payload req)); reflexivity.
Qed.

Lemma unusable_upstream_body_gets_500_witness :
  let env := Sim.make Sim.init_ok (Sim.answer 200 "[]" (JList [])) (inr (JInt 4)) in
  let request := {| client := "203.0.113.7"; payload := JDict [("prompt", JStr "hi")] |} in
  let req := {| prompt := "hi"; model := Some "mistral";
                temperature := Some 0x1.6666666666666p-1%float; max_tokens := Some 1000 |} in
  (exists cause,
     post_generate env request Sim.fresh =
       (wrapped_500 cause,
        after_traceback env cause (after_upstream_post req request Sim.fresh))
     /\ exists message, cause = PyError "AttributeError" message)
  /\ remaining_queries (trace (snd (post_generate env request Sim.fresh)))
       = remaining_queries (trace Sim.fresh).
Proof.
  intros env request req.
  apply (unusable_upstream_body_gets_500 env request req Sim.fresh
           {| status_code := 200; text := "[]"; json_body := inr (JList []) |});
    try reflexivity.
  intros fields. discriminate.
Defined.



(** X8: the remaining-quota lookup of line 104 is made only for a valid
    request that the limiter admitted and that the backend answered with
    status 200 and a JSON object; in particular never after an upstream
    error. *)
Theorem remaining_lookup_only_after_usable_answer (env : Env) (request : Request)
    (w : world) :
  remaining_queries (trace (snd (post_generate env request w)))
    <> remaining_queries (trace w) ->
  exists req response fields,
    RateLimiter_call env 5 1 request w = inr tt
    /\ PromptRequest_validate env (payload request) = inr req
    /\ httpx_post env ollama_url (upstream_payload req) (after_rate_limiter request w)
         = inr response
    /\ status_code response = 200
    /\ json_body response = inr (JDict fields)
    /\ remaining_queries (trace (snd (post_generate env request w)))
         = client request :: remaining_queries (trace w).
Proof.
  unfold post_generate, rate_limiter, call.
  destruct (RateLimiter_call env 5 1 request w) as [e | []]; simpl;
    [intros H; now contradiction H |].
  destruct (PromptRequest_validate env (payload request)) as [errors | req]; simpl;
    [intros H; now contradiction H |].
  fold (after_rate_limiter request w).
  rewrite generate_code_run. unfold failure, after_traceback, posted.
  destruct (httpx_post env ollama_url (upstream_payload req) (after_rate_limiter request w))
    as [e | response] eqn:Hpost.
  { destruct (json_compliant (upstream_payload req)); simpl; intros H; now contradiction H. }
  rewrite (answered_is_compliant env _ _ _ _ Hpost).
  destruct (status_code response =? 200) eqn:Hstatus; simpl;
    [| intros H; now contradiction H].
  apply Z.eqb_eq in Hstatus.
  destruct (json_body response) as [e | result] eqn:Hjson; simpl;
    [intros H; now contradiction H |].
  destruct result; simpl; try (intros H; now contradiction H).
  intros _. exists req, response, items. repeat split; try assumption.
  destruct (FastAPILimiter_get_remaining env request _); reflexivity.
Qed.

Lemma remaining_lookup_only_after_usable_answer_witness :
  let env := Sim.make Sim.init_ok (Sim.answer 200 "{}" (JDict [])) (inr (JInt 4)) in
  let request := {| client := "203.0.113.7"; payload := JDict [("prompt", JStr "hi")] |} in
  exists req response fields,
    RateLimiter_call env 5 1 request Sim.fresh = inr tt
    /\ PromptRequest_validate env (payload request) = inr req
    /\ httpx_post env ollama_url (upstream_payload req)
         (after_rate_limiter request Sim.fresh) = inr response
    /\ status_code response = 200
    /\ json_body response = inr (JDict fields)
    /\ remaining_queries (trace (snd (post_generate env request Sim.fresh)))
         = client request :: remaining_queries (trace Sim.fresh).
Proof.
  intros env request.
  apply (remaining_lookup_only_after_usable_answer env request Sim.fresh).
  simpl. discriminate.
Defined.

(** X9: a request that the limiter admits is answered 200, 422 or 500, and
    422 exactly when its payload fails validation. *)
Theorem admitted_request_status (env : Env) (request : Request) (w : world) :
  RateLimiter_call env 5 1 request w = inr tt ->
  (status_of (fst (post_generate env request w)) = 200
   \/ status_of (fst (post_generate env request w)) = 422
   \/ status_of (fst (post_generate env request w)) = 500)
  /\ (status_of (fst (post_generate env request w)) = 422 <->
      exists errors, PromptRequest_validate env (payload request) = inl errors).
Proof.
  intros Hadmit. unfold post_generate, rate_limiter, call. rewrite Hadmit.
  destruct (PromptRequest_validate env (payload request)) as [errors | req]; simpl.
  - split; [tauto | split; eauto].
  - destruct (generate_code env req request _) as [[e | content] w2] eqn:Hcode; simpl.
    + apply generate_code_raises in Hcode as [detail ->]. simpl.
      split; [tauto |]. split; [discriminate | intros [errors H]; discriminate].
    + split; [tauto |]. split; [discriminate | intros [errors H]; discriminate].
Qed.

Lemma admitted_request_status_witness :
  let env := Sim.make Sim.init_ok (Sim.answer 200 "{}" (JDict [])) (inr (JInt 4)) in
  let request := {| client := "203.0.113.7"; payload := JDict [("model", JStr "mistral")] |} in
  (status_of (fst (post_generate env request Sim.fresh)) = 200
   \/ status_of (fst (post_generate env request Sim.fresh)) = 422
   \/ status_of (fst (post_generate env request Sim.fresh)) = 500)
  /\ (status_of (fst (post_generate env request Sim.fresh)) = 422 <->
      exists errors, PromptRequest_validate env (payload request) = inl errors).
Proof.
  intros env request.
  apply (admitted_request_status env request Sim.fresh). reflexivity.
Defined.


(** ** Further properties of startup, validation and the greeting *)

(** X10: startup prints exactly one line: the success line when both
    [redis.from_url] and [FastAPILimiter.init] returned, and otherwise the
    failure line ending with the message of the exception that was raised;
    it never prints both. *)
Theorem startup_prints_one_line (env : Env) (w : world) :
  trace (snd (startup env w)) =
    Printed
      (match redis_from_url env "redis://localhost:6379" w with
       | inl e => "❌ Redis connection failed: " ++ str e
       | inr connection =>
           match fst (FastAPILimiter_init env connection w) with
           | inl e => "❌ Redis connection failed: " ++ str e
           | inr _ => "✅ Redis connected successfully"
           end
       end) :: trace w.
Proof.
  unfold startup, try_except, bind, ask, FastAPILimiter_init_call, print.
  destruct (redis_from_url env "redis://localhost:6379" w) as [e | connection]; simpl;
    [reflexivity |].
  destruct (FastAPILimiter_init env connection w) as [[e | []] redis_after]; reflexivity.
Qed.

(** X11: a payload that only carries a text [prompt] is accepted with the
    defaults of the request model: model "mistral", temperature 0.7 and
    max_tokens 1000, and these are the values sent upstream, with
    [stream] false. *)
Theorem validation_fills_defaults (env : Env) (items : list (string * json)) (s : string) :
  assoc "prompt" items = Some (JStr s) ->
  assoc "model" items = None ->
  assoc "temperature" items = None ->
  assoc "max_tokens" items = None ->
  exists req,
    PromptRequest_validate env (JDict items) = inr req
    /\ upstream_payload req =
         JDict [("model", JStr "mistral"); ("prompt", JStr s);
                ("temperature", JFloat 0x1.6666666666666p-1%float);
                ("max_tokens", JInt 1000); ("stream", JBool false)].
Proof.
  intros Hprompt Hmodel Htemperature Hmax.
  unfold PromptRequest_validate. rewrite Hprompt, Hmodel, Htemperature, Hmax.
  eexists. split; reflexivity.
Qed.

Lemma validation_fills_defaults_witness :
  let env := Sim.make Sim.init_ok (Sim.answer 200 "{}" (JDict [])) (inr (JInt 4)) in
  exists req,
    PromptRequest_validate env (JDict [("prompt", JStr "sort a list")]) = inr req
    /\ upstream_payload req =
         JDict [("model", JStr "mistral"); ("prompt", JStr "sort a list");
                ("temperature", JFloat 0x1.6666666666666p-1%float);
                ("max_tokens", JInt 1000); ("stream", JBool false)].
Proof.
  intros env.
  apply (validation_fills_defaults env [("prompt", JStr "sort a list")] "sort a list");
    reflexivity.
Defined.

(** X12: an explicit [null] for [model], [temperature] or [max_tokens] is
    accepted (the fields are [Optional]) and is not replaced by the default:
    for each of the three fields on its own, whatever the other two are,
    the upstream payload of a valid request carries [null] for a field the
    payload gave as [null]; and a payload whose three fields are each
    absent or [null] is valid. *)
Theorem null_fields_are_forwarded (env : Env) (items : list (string * json)) :
  (forall req,
     PromptRequest_validate env (JDict items) = inr req ->
     exists sent,
       upstream_payload req = JDict sent
       /\ (assoc "model" items = Some JNull -> assoc "model" sent = Some JNull)
       /\ (assoc "temperature" items = Some JNull -> assoc "temperature" sent = Some JNull)
       /\ (assoc "max_tokens" items = Some JNull -> assoc "max_tokens" sent = Some JNull))
  /\ (forall s,
        assoc "prompt" items = Some (JStr s) ->
        (assoc "model" items = None \/ assoc "model" items = Some JNull) ->
        (assoc "temperature" items = None \/ assoc "temperature" items = Some JNull) ->
        (assoc "max_tokens" items = None \/ assoc "max_tokens" items = Some JNull) ->
        exists req, PromptRequest_validate env (JDict items) = inr req).
Proof.
  split.
  - intros req Hvalid.
    apply valid_payload_fields in Hvalid as (_ & Hmodel & Htemperature & Hmax).
    eexists. split; [reflexivity |]. simpl. repeat split.
    + intros Hnull. rewrite Hnull in Hmodel. inversion Hmodel. reflexivity.
    + intros Hnull. rewrite Hnull in Htemperature. inversion Htemperature. reflexivity.
    + intros Hnull. rewrite Hnull in Hmax. inversion Hmax. reflexivity.
  - intros s Hprompt Hmodel Htemperature Hmax. unfold PromptRequest_validate.
    rewrite Hprompt.
    destruct Hmodel as [-> | ->], Htemperature as [-> | ->], Hmax as [-> | ->];
      eexists; reflexivity.
Qed.

(** A payload with one explicit [null]. *)
Lemma null_fields_are_forwarded_witness :
  let env := Sim.make Sim.init_ok (Sim.answer 200 "{}" (JDict [])) (inr (JInt 4)) in
  let items := [("prompt", JStr "hi"); ("temperature", JNull)] in
  exists req,
    PromptRequest_validate env (JDict items) = inr req
    /\ exists sent,
         upstream_payload req = JDict sent
         /\ assoc "temperature" sent = Some JNull
         /\ assoc "model" sent = Some (JStr "mistral")
         /\ assoc "max_tokens" sent = Some (JInt 1000).
Proof.
  intros env items.
  destruct (null_fields_are_forwarded env items) as [Hforwarded Haccepted].
  destruct (Haccepted "hi" eq_refl (or_introl eq_refl) (or_intror eq_refl)
              (or_introl eq_refl)) as [req Hvalid].
  exists req. split; [exact Hvalid |].
  destruct (Hforwarded req Hvalid) as (sent & Hsent & _ & Htemperature & _).
  exists sent. split; [exact Hsent |]. split; [exact (Htemperature eq_refl) |].
  inversion Hvalid. subst req. inversion Hsent. split; reflexivity.
Defined.

(** X14: when [redis.from_url] itself raises at startup and the limiter
    holds no connection, startup returns all the same, prints the failure
    line, leaves the limiter as it was, and the health probe that follows
    answers [redis_status] "inactive". *)
Theorem failed_from_url_is_reported_inactive (env : Env) (w : world) (cause : exn) :
  redis_from_url env "redis://localhost:6379" w = inl cause ->
  limiter_redis w = None ->
  startup env w = (inr tt, record (Printed ("❌ Redis connection failed: " ++ str cause)) w)
  /\ exists items,
       fst (health_check env (snd (startup env w))) = inr (JDict items)
       /\ assoc "redis_status" items = Some (JStr "inactive").
Proof.
  intros Hconnect Hunset.
  assert (Hrun : startup env w =
    (inr tt, record (Printed ("❌ Redis connection failed: " ++ str cause)) w)).
  { unfold startup, try_except, bind, ask, print. rewrite Hconnect. reflexivity. }
  split; [exact Hrun |]. rewrite Hrun. unfold health_check. simpl. rewrite Hunset.
  eexists. split; reflexivity.
Qed.

Lemma failed_from_url_is_reported_inactive_witness :
  let cause := PyError "ImportError" "no module named redis.asyncio" in
  let env :=
    {| redis_from_url := fun _ _ => inl cause;
       FastAPILimiter_init := Sim.init_ok;
       RateLimiter_call := Sim.limiter;
       FastAPILimiter_get_remaining := fun _ _ => inr (JInt 4);
       httpx_post := Sim.post (Sim.answer 200 "{}" (JDict []));
       httpx_encodes := Sim.post_encodes (Sim.answer 200 "{}" (JDict []));
       pydantic_int := Sim.int_of;
       pydantic_float := Sim.float_of;
       time_time := Sim.clock;
       py_round := fun x _ => x;
       format_exc := str |} in
  startup env Sim.fresh =
    (inr tt, record (Printed ("❌ Redis connection failed: " ++ str cause)) Sim.fresh)
  /\ exists items,
       fst (health_check env (snd (startup env Sim.fresh))) = inr (JDict items)
       /\ assoc "redis_status" items = Some (JStr "inactive").
Proof.
  intros cause env.
  apply (failed_from_url_is_reported_inactive env Sim.fresh cause); reflexivity.
Defined.

Lemma length_append (a b : string) :
  String.length (a ++ b) = (String.length a + String.length b)%nat.
Proof. induction a as [| c a IH]; simpl; [reflexivity | now rewrite IH]. Qed.

Lemma append_cancel_r (a b suffix : string) : a ++ suffix = b ++ suffix -> a = b.
Proof.
  revert b. induction a as [| c a IH]; intros [| d b] H; simpl in H.
  - reflexivity.
  - apply (f_equal String.length) in H. simpl in H. rewrite length_append in H. lia.
  - apply (f_equal String.length) in H. simpl in H. rewrite length_append in H. lia.
  - inversion H. f_equal. now apply IH.
Qed.

(** X13: the greeting determines the name: two different names never get
    the same greeting, whatever characters they are made of. *)
Theorem greet_user_injective (name name' : string) :
  name <> name' -> greet_user name <> greet_user name'.
Proof.
  unfold greet_user. intros Hdifferent H. inversion H as [Hgreeting].
  now apply append_cancel_r in Hgreeting.
Qed.

Lemma greet_user_injective_witness : greet_user "ann" <> greet_user "anna".
Proof. apply (greet_user_injective "ann" "anna"). discriminate. Defined.
